(** * Flood mapping app: the raster algebra and the render pass of [app.py]

    The program is a Streamlit script over Google Earth Engine.  Earth Engine
    images are rasters whose pixels carry a value and a validity mask; the
    script composes a handful of per-pixel operations ([normalizedDifference],
    [gt], [lt], [selfMask], [updateMask], [mean]) and adds the results to a
    map widget.  Pixel values are modelled as exact rationals. *)

From Stdlib Require Import ZArith QArith Qabs List String Bool Lia Lqa.
Import ListNotations.
Open Scope Q_scope.

(* ================================================================== *)
(** ** Pixels and rasters *)

(** A pixel is either masked out (no data) or carries a value. *)
Definition pixel := option Q.

Definition coord := (Z * Z)%type.

(** One band of an image: a value or no-data at every grid position. *)
Definition raster := coord -> pixel.

(** A pixel is present in a raster when it is not masked there. *)
Definition present (p : pixel) : bool :=
  match p with Some _ => true | None => false end.

Definition Qlt_bool (a b : Q) : bool := negb (Qle_bool b a).

Module EE.

(** [Image.gt(c)]: 1 where the value is strictly greater than the
    constant, 0 elsewhere; the mask of the input is kept. *)
Definition gt (image : raster) (c : Q) : raster :=
  fun xy => match image xy with
            | Some v => Some (if Qlt_bool c v then 1 else 0)
            | None => None
            end.

(** [Image.lt(c)]: 1 where the value is strictly less than the constant. *)
Definition lt (image : raster) (c : Q) : raster :=
  fun xy => match image xy with
            | Some v => Some (if Qlt_bool v c then 1 else 0)
            | None => None
            end.

(** [Image.updateMask(mask)]: a pixel stays valid only where it was
    valid, the mask image is valid and the mask value is not zero. *)
Definition updateMask (image mask : raster) : raster :=
  fun xy => match image xy, mask xy with
            | Some v, Some m => if Qeq_bool m 0 then None else Some v
            | _, _ => None
            end.

(** [Image.selfMask()]: the image masked by its own values. *)
Definition selfMask (image : raster) : raster := updateMask image image.

(** [Image.rename] changes the band name only; a raster has no name. *)
Definition rename (image : raster) (name : string) : raster := image.

(** [Image.normalizedDifference([a, b])]: (a - b) / (a + b) per pixel.
    The result is masked where either input is masked or negative; the
    quotient has no value where the two inputs sum to zero. *)
Definition normalizedDifference (a b : raster) : raster :=
  fun xy => match a xy, b xy with
            | Some x, Some y =>
                if Qlt_bool x 0 || Qlt_bool y 0 then None
                else if Qeq_bool (x + y) 0 then None
                else Some ((x - y) / (x + y))
            | _, _ => None
            end.

(** The valid values a list of rasters has at one position. *)
Fixpoint valid_at (rs : list raster) (xy : coord) : list Q :=
  match rs with
  | [] => []
  | r :: rs' => match r xy with
                | Some v => v :: valid_at rs' xy
                | None => valid_at rs' xy
                end
  end.

Definition Qsum (vs : list Q) : Q := fold_right Qplus 0 vs.

(** [ImageCollection.mean()] on one band: the mean of the valid values
    at each position, masked where no image has a valid value. *)
Definition mean (rs : list raster) : raster :=
  fun xy => match valid_at rs xy with
            | [] => None
            | vs => Some (Qsum vs / inject_Z (Z.of_nat (List.length vs)))
            end.

End EE.

(* ================================================================== *)
(** ** Index and mask engine *)

(** The bands of a Sentinel-2 scene that the program reads. *)
Record Scene := mkScene {
  B2 : raster;
  B3 : raster;
  B4 : raster;
  B11 : raster
}.

(** A scene with the index band added by [calculate_mndwi]. *)
Record IndexedScene := mkIndexed {
  bands : Scene;
  MNDWI : raster
}.

Definition calculate_mndwi (image : Scene) : IndexedScene :=
  let mndwi := EE.rename (EE.normalizedDifference (B3 image) (B11 image)) "MNDWI" in
  mkIndexed image mndwi.

Definition water_mask (image : raster) (threshold : Q) : raster :=
  let mask := EE.selfMask (EE.rename (EE.gt image threshold) "water_mask") in
  mask.

(** The fixed cutoff of the reference configuration. *)
Definition cutoff : Q := 1 # 100.

(** [s2.map(calculate_mndwi).select('MNDWI').mean()] *)
Definition mndwi_composite (s2_clipped : list Scene) : raster :=
  EE.mean (map MNDWI (map calculate_mndwi s2_clipped)).

(** Lines 159-163: the flood mask from the two mean index composites. *)
Definition flood_extent (preflood_mndwi postflood_mndwi : raster) : raster :=
  let flood_water := water_mask postflood_mndwi cutoff in
  let notPermWaterMask := EE.selfMask (EE.lt preflood_mndwi cutoff) in
  let flooded := EE.updateMask flood_water notPermWaterMask in
  flooded.

(** Line 150: the pre-event permanent-water mask. *)
Definition perm_water (preflood_mndwi : raster) : raster :=
  water_mask preflood_mndwi cutoff.

(* ================================================================== *)
(** ** The render pass: boundary loader, imagery query, map presenter *)

Local Open Scope string_scope.

(** [str.endswith] *)
Definition endswith (s suffix : string) : bool :=
  let n := String.length s in
  let m := String.length suffix in
  (m <=? n)%nat && String.eqb (substring (n - m) m s) suffix.

(** Lines 71-75: the first archive member whose name ends in ".shp". *)
Fixpoint find_shp (namelist : list string) : option string :=
  match namelist with
  | [] => None
  | file :: rest => if endswith file ".shp" then Some file else find_shp rest
  end.

(** Python truth value of [shp_file]: [None] and the empty string are false. *)
Definition truthy (shp_file : option string) : bool :=
  match shp_file with
  | Some s => negb (String.eqb s "")
  | None => false
  end.

(** Calendar dates, as day ordinals. *)
Definition date := Z.

Record VisParams := mkVis {
  vis_bands : list string;
  vis_min : option Q;
  vis_max : option Q;
  vis_palette : list string;
  vis_color : option string
}.

Definition no_vis : VisParams := mkVis [] None None [] None.

(** A mean composite with its rendering parameters attached ([visualize]
    is evaluated by the platform when the map is drawn). *)
Record VisImage := mkVisImage {
  vis_params : VisParams;
  vis_source : Scene
}.

(** An entry of the remote catalog "COPERNICUS/S2_HARMONIZED". *)
Record CatalogEntry (Geometry : Type) := mkEntry {
  acquired : date;
  footprint : Geometry;
  scene : Scene
}.
Arguments mkEntry {Geometry} _ _ _.
Arguments acquired {Geometry} _.
Arguments footprint {Geometry} _.
Arguments scene {Geometry} _.

(** The libraries and the remote platform the script calls into: the
    values it passes around without looking inside, and the calls whose
    results it branches on. *)
Class Platform := {
  Upload : Type;
  GeoDataFrame : Type;
  Geometry : Type;
  (** [zipfile.ZipFile(zip_path, 'r')]: the member names the archive
      lists, or nothing when the upload cannot be opened as a ZIP file. *)
  zip_members : Upload -> option (list string);
  (** Whether [extractall] writes every member out; it raises when it
      cannot, as it does for an encrypted member. *)
  zip_extracts : Upload -> bool;
  (** [gpd.read_file] on an extracted member; it may raise. *)
  read_file : Upload -> string -> option GeoDataFrame;
  (** [GeoDataFrame.to_crs(epsg=...)]; it may raise. *)
  to_crs : GeoDataFrame -> Z -> option GeoDataFrame;
  geopandas_to_ee : GeoDataFrame -> Geometry;
  (** Mean of the centroid latitudes and longitudes of the boundary. *)
  centroid_mean : GeoDataFrame -> Q * Q;
  strftime : date -> string;
  catalog : list (CatalogEntry Geometry);
  intersects : Geometry -> Geometry -> bool;
  contains : Geometry -> coord -> bool
}.

(** Lines 67-72: the archive is opened and extracted, then its names are
    listed: the member names, or nothing when opening or extracting
    raises. *)
Definition zip_namelist {P : Platform} (zip_file : Upload) : option (list string) :=
  match zip_members zip_file with
  | Some namelist => if zip_extracts zip_file then Some namelist else None
  | None => None
  end.

Section App.

Context {P : Platform}.

Inductive LayerData :=
| AOI (roi : Geometry)
| Visual (image : VisImage)
| Mask (image : raster).

Record Layer := mkLayer {
  layer_data : LayerData;
  layer_vis : VisParams;
  layer_name : string
}.

Record MapWidget := mkMap {
  center : Q * Q;
  zoom : Z;
  layers : list Layer;
  legend : option (string * list (string * string))
}.

(** What the user sees and what the script asks of its libraries, in
    the order it happens. *)
Inductive Event :=
| StError (msg : string)
| StWarning (msg : string)
| ReadFile (member : string)
| ToCrs (epsg : Z)
| GetInfo (roi : Geometry) (start_date end_date : date)
| ToStreamlit (shown : MapWidget).

Record World := mkWorld {
  Map : MapWidget;
  log : list Event
}.

(** A step either returns a value or raises an exception nobody catches. *)
Inductive Outcome (A : Type) :=
| Returned (a : A) (w : World)
| Raised (w : World).
Arguments Returned {A} a w.
Arguments Raised {A} w.

Definition M (A : Type) := World -> Outcome A.

Definition ret {A} (a : A) : M A := fun w => Returned a w.

Definition bind {A B} (m : M A) (k : A -> M B) : M B :=
  fun w => match m w with
           | Returned a w' => k a w'
           | Raised w' => Raised w'
           end.

Definition raise {A} : M A := fun w => Raised w.

Notation "x <- m ;; k" := (bind m (fun x => k))
  (at level 61, m at next level, right associativity).
Notation "m ;;; k" := (bind m (fun _ => k))
  (at level 61, right associativity).

Definition emit (e : Event) : M unit :=
  fun w => Returned tt (mkWorld (Map w) (log w ++ [e])%list).

(** A library call that may raise. *)
Definition call {A} (e : Event) (r : option A) : M A :=
  emit e ;;; match r with Some a => ret a | None => raise end.

Definition set_Map (m : MapWidget) : M unit :=
  fun w => Returned tt (mkWorld m (log w)).

(** [Map.addLayer]; the map service is taken to answer. *)
Definition addLayer (d : LayerData) (vis : VisParams) (name : string) : M unit :=
  fun w => let m := Map w in
           Returned tt (mkWorld (mkMap (center m) (zoom m)
                                       (layers m ++ [mkLayer d vis name])%list
                                       (legend m))
                                (log w)).

Definition add_legend (title : string) (legend_dict : list (string * string)) : M unit :=
  fun w => let m := Map w in
           Returned tt (mkWorld (mkMap (center m) (zoom m) (layers m)
                                       (Some (title, legend_dict)))
                                (log w)).

Definition to_streamlit : M unit :=
  fun w => Returned tt (mkWorld (Map w) (log w ++ [ToStreamlit (Map w)])%list).

(** Lines 57-83. *)
Definition load_shapefile_from_zip (zip_file : Upload) : M (option GeoDataFrame) :=
  match zip_namelist zip_file with
  | None => raise
  | Some namelist =>
      let shp_file := find_shp namelist in
      if truthy shp_file then
        match shp_file with
        | Some name =>
            study_extent <- call (ReadFile name) (read_file zip_file name) ;;
            ret (Some study_extent)
        | None => raise
        end
      else
        emit (StError "Shapefile (.shp) not found in the uploaded ZIP file.") ;;;
        ret None
  end.

(** [image.clip(roi)] on one band and on a scene. *)
Definition clip (roi : Geometry) (r : raster) : raster :=
  fun xy => if contains roi xy then r xy else None.

Definition clip_scene (roi : Geometry) (image : Scene) : Scene :=
  mkScene (clip roi (B2 image)) (clip roi (B3 image))
          (clip roi (B4 image)) (clip roi (B11 image)).

(** [filterDate(start, end)]: start inclusive, end exclusive. *)
Definition filterDate (start_date end_date : date) (c : list (CatalogEntry Geometry))
  : list (CatalogEntry Geometry) :=
  filter (fun e => (start_date <=? acquired e)%Z && (acquired e <? end_date)%Z) c.

Definition filterBounds (roi : Geometry) (c : list (CatalogEntry Geometry))
  : list (CatalogEntry Geometry) :=
  filter (fun e => intersects (footprint e) roi) c.

(** Lines 97-101: the filtered collection, every scene clipped. *)
Definition s2_clipped (roi : Geometry) (start_date end_date : date) : list Scene :=
  let dataset := filterBounds roi (filterDate start_date end_date catalog) in
  map (fun e => clip_scene roi (scene e)) dataset.

(** [ImageCollection.mean()], band by band. *)
Definition mean_scene (c : list Scene) : Scene :=
  mkScene (EE.mean (map B2 c)) (EE.mean (map B3 c))
          (EE.mean (map B4 c)) (EE.mean (map B11 c)).

Definition no_images_message (start_date_str end_date_str : string) : string :=
  "No Sentinel-2 images found for the selected date range: "
    ++ start_date_str ++ " to " ++ end_date_str.

(** Lines 93-115.  The catalog is taken to answer: a network or
    authentication failure of [size().getInfo()] is not part of this
    model. *)
Definition get_S2 (roi : Geometry) (start_date end_date : date)
  : M (option VisImage * option (list Scene)) :=
  let start_date_str := strftime start_date in
  let end_date_str := strftime end_date in
  let clipped := s2_clipped roi start_date end_date in
  emit (GetInfo roi start_date end_date) ;;;
  if (List.length clipped =? 0)%nat then
    emit (StWarning (no_images_message start_date_str end_date_str)) ;;;
    ret (None, None)
  else
    let vis_params := mkVis ["B4"; "B3"; "B2"] (Some 0) (Some (3000 # 1)) [] None in
    ret (Some (mkVisImage vis_params (mean_scene clipped)), Some clipped).

Definition water_Viz : VisParams :=
  mkVis [] (Some 0) (Some (9 # 10)) ["#f7fbff"; "#1452d9"] None.

(** A method call on a value that may be Python's [None]. *)
Definition deref {A} (o : option A) : M A :=
  match o with Some a => ret a | None => raise end.

(** Lines 143-186: the composites and the flood mask for a region. *)
Definition flood_layers (roi : Geometry)
           (start_date end_date start_date_post end_date_post : date) : M unit :=
  pre <- get_S2 roi start_date end_date ;;
  let '(pre_rgb_layer, s2_preflood_clipped) := pre in
  match pre_rgb_layer with
  | Some pre_rgb =>
      addLayer (Visual pre_rgb) no_vis "Pre-flood RGB" ;;;
      pre_scenes <- deref s2_preflood_clipped ;;
      let preflood_mndwi := mndwi_composite pre_scenes in
      let perm_water := water_mask preflood_mndwi cutoff in
      post <- get_S2 roi start_date_post end_date_post ;;
      let '(post_rgb_layer, s2_postflood_clipped) := post in
      match post_rgb_layer with
      | Some post_rgb =>
          addLayer (Visual post_rgb) no_vis "Post-flood RGB" ;;;
          post_scenes <- deref s2_postflood_clipped ;;
          let postflood_mndwi := mndwi_composite post_scenes in
          let flooded := flood_extent preflood_mndwi postflood_mndwi in
          addLayer (Mask flooded) water_Viz "Flood Extent" ;;;
          add_legend "Flood Extent" [("Flooded Areas", "#1452d9")]
      | None => ret tt
      end
  | None => ret tt
  end.

(** Lines 127-188: one render pass of the script. *)
Definition script (uploaded_zip : option Upload)
           (start_date end_date start_date_post end_date_post : date) : M unit :=
  match uploaded_zip with
  | Some zip =>
      loaded <- load_shapefile_from_zip zip ;;
      match loaded with
      | Some study_extent =>
          study_extent <- call (ToCrs 4326) (to_crs study_extent 4326) ;;
          let roi := geopandas_to_ee study_extent in
          set_Map (mkMap (centroid_mean study_extent) 9 [] None) ;;;
          addLayer (AOI roi) (mkVis [] None None [] (Some "red")) "AOI" ;;;
          flood_layers roi start_date end_date start_date_post end_date_post
      | None => ret tt
      end
  | None => ret tt
  end ;;;
  to_streamlit.

(** Line 90: the map the script starts from. *)
Definition default_Map : MapWidget := mkMap (0, 0) 2 [] None.

Definition initial : World := mkWorld default_Map [].

Definition layer_names (w : World) : list string :=
  map layer_name (layers (Map w)).

(** *** What a pass over [flood_layers] leaves on the map and in the log,
    by which of the two queries return data *)

Definition rgb_composite (roi : Geometry) (start_date end_date : date) : VisImage :=
  mkVisImage (mkVis ["B4"; "B3"; "B2"] (Some 0) (Some (3000 # 1)) [] None)
             (mean_scene (s2_clipped roi start_date end_date)).

Definition no_images (start_date end_date : date) : Event :=
  StWarning (no_images_message (strftime start_date) (strftime end_date)).

Definition layers_added (roi : Geometry)
           (start_date end_date start_date_post end_date_post : date) : list Layer :=
  match s2_clipped roi start_date end_date with
  | [] => []
  | pre =>
      mkLayer (Visual (rgb_composite roi start_date end_date)) no_vis "Pre-flood RGB"
      :: match s2_clipped roi start_date_post end_date_post with
         | [] => []
         | post =>
             [mkLayer (Visual (rgb_composite roi start_date_post end_date_post))
                      no_vis "Post-flood RGB";
              mkLayer (Mask (flood_extent (mndwi_composite pre) (mndwi_composite post)))
                      water_Viz "Flood Extent"]
         end
  end.

Definition events_logged (roi : Geometry)
           (start_date end_date start_date_post end_date_post : date) : list Event :=
  match s2_clipped roi start_date end_date with
  | [] => [GetInfo roi start_date end_date; no_images start_date end_date]
  | _ =>
      GetInfo roi start_date end_date
      :: GetInfo roi start_date_post end_date_post
      :: match s2_clipped roi start_date_post end_date_post with
         | [] => [no_images start_date_post end_date_post]
         | _ => []
         end
  end.

Definition legend_after (roi : Geometry)
           (start_date end_date start_date_post end_date_post : date)
           (before : option (string * list (string * string)))
  : option (string * list (string * string)) :=
  match s2_clipped roi start_date end_date,
        s2_clipped roi start_date_post end_date_post with
  | _ :: _, _ :: _ => Some ("Flood Extent", [("Flooded Areas", "#1452d9")])
  | _, _ => before
  end.

Definition after_flood_layers (roi : Geometry)
           (start_date end_date start_date_post end_date_post : date)
           (w : World) : World :=
  mkWorld
    (mkMap (center (Map w)) (zoom (Map w))
           (layers (Map w)
              ++ layers_added roi start_date end_date start_date_post end_date_post)%list
           (legend_after roi start_date end_date start_date_post end_date_post
                         (legend (Map w))))
    (log w ++ events_logged roi start_date end_date start_date_post end_date_post)%list.

Definition shp_not_found : Event :=
  StError "Shapefile (.shp) not found in the uploaded ZIP file.".

End App.

Arguments Returned {P A} a w.
Arguments Raised {P A} w.

(** The world a step leaves behind, whether it returned or raised. *)
Definition world_of {P : Platform} {A} (o : Outcome A) : World :=
  match o with
  | Returned _ w => w
  | Raised w => w
  end.

(* ================================================================== *)
(** ** A small concrete platform

    One scene acquired on day 10 that covers everything; archives are given
    by their member names and every member parses. *)

Definition flat (v : Q) : raster := fun _ => Some v.

Definition demo_scene : Scene :=
  mkScene (flat (400 # 1)) (flat (300 # 1)) (flat (200 # 1)) (flat (100 # 1)).

Definition demo : Platform := {|
  Upload := list string;
  GeoDataFrame := string;
  Geometry := unit;
  zip_members := fun names => Some names;
  zip_extracts := fun _ => true;
  read_file := fun _ member => Some member;
  to_crs := fun gdf _ => Some gdf;
  geopandas_to_ee := fun _ => tt;
  centroid_mean := fun _ => (0, 0);
  strftime := fun d => if (d <? 10)%Z then "2024-01-23" else "2024-11-23";
  catalog := [mkEntry 10%Z tt demo_scene];
  intersects := fun _ _ => true;
  contains := fun _ _ => true
|}.

(** The world after [Map.to_streamlit()]. *)
Definition rendered {P : Platform} (w : World) : World :=
  mkWorld (Map w) (log w ++ [ToStreamlit (Map w)])%list.

(** Lines 140-141: the map rebuilt around a loaded boundary, with the
    boundary as its only layer. *)
Definition boundary_world {P : Platform} (study_extent : GeoDataFrame)
           (events : list Event) : World :=
  mkWorld
    (mkMap (centroid_mean study_extent) 9
           [mkLayer (AOI (geopandas_to_ee study_extent))
                    (mkVis [] None None [] (Some "red")) "AOI"]
           None)
    events.

(** Whether a catalog entry passes the date and the bounds filter. *)
Definition matches {P : Platform} (roi : Geometry) (start_date end_date : date)
           (entry : CatalogEntry Geometry) : bool :=
  ((start_date <=? acquired entry)%Z && (acquired entry <? end_date)%Z)
  && intersects (footprint entry) roi.

(** Whether an event is the rendering of the map. *)
Definition is_ToStreamlit {P : Platform} (e : Event) : bool :=
  match e with
  | ToStreamlit _ => true
  | _ => false
  end.

(** A second concrete platform, with the failures the script does not
    handle and a bounded region: an upload is the member list of an archive,
    or nothing when the archive is corrupt; the member "bad.shp" does not
    parse; the boundary "noprj.shp" cannot be reprojected; a region is the
    half-width of a square around the origin.  Two scenes, on day 10 and on
    day 20. *)
Definition wet_scene : Scene :=
  mkScene (flat (400 # 1)) (flat (300 # 1)) (flat (200 # 1)) (flat (100 # 1)).

Definition dry_scene : Scene :=
  mkScene (flat (400 # 1)) (flat (100 # 1)) (flat (200 # 1)) (flat (300 # 1)).

Definition demo_bounded : Platform := {|
  Upload := option (list string);
  GeoDataFrame := string;
  Geometry := Z;
  zip_members := fun upload => upload;
  zip_extracts := fun _ => true;
  read_file := fun _ member =>
                 if String.eqb member "bad.shp" then None else Some member;
  to_crs := fun gdf _ =>
              if String.eqb gdf "noprj.shp" then None else Some gdf;
  geopandas_to_ee := fun _ => 5%Z;
  centroid_mean := fun _ => (0, 0);
  strftime := fun d => if (d <? 15)%Z then "2024-01-23" else "2024-11-23";
  catalog := [mkEntry 10%Z 5%Z dry_scene; mkEntry 20%Z 5%Z wet_scene];
  intersects := fun _ _ => true;
  contains := fun half xy =>
                (Z.abs (fst xy) <=? half)%Z && (Z.abs (snd xy) <=? half)%Z
|}.

(** The square region of a half-width, on the bounded platform. *)
Definition square (half : Z) : @Geometry demo_bounded := half.

(** An uploaded archive by what the loader can see of it: the member names
    it lists, and whether its members are encrypted ([extractall] is given
    no password and raises on them). *)
Record Archive := mkArchive {
  member_names : list string;
  encrypted : bool
}.

(** The first platform again, over such archives. *)
Definition demo_archives : Platform := {|
  Upload := Archive;
  GeoDataFrame := string;
  Geometry := unit;
  zip_members := fun archive => Some (member_names archive);
  zip_extracts := fun archive => negb (encrypted archive);
  read_file := fun _ member => Some member;
  to_crs := fun gdf _ => Some gdf;
  geopandas_to_ee := fun _ => tt;
  centroid_mean := fun _ => (0, 0);
  strftime := fun d => if (d <? 10)%Z then "2024-01-23" else "2024-11-23";
  catalog := [mkEntry 10%Z tt demo_scene];
  intersects := fun _ _ => true;
  contains := fun _ _ => true
|}.

(** An encrypted archive that lists a text file and a table, and no
    geometry file. *)
Definition encrypted_archive : @Upload demo_archives :=
  mkArchive ["readme.txt"; "aoi.dbf"] true.

(** The three ways the boundary of an upload fails before the map is
    rebuilt: the archive does not open or extract, its first ".shp" member
    does not parse, or the parsed boundary cannot be reprojected. *)
Definition boundary_fails {P : Platform} (zip : Upload) : Prop :=
  zip_namelist zip = None \/
  exists namelist file,
    zip_namelist zip = Some namelist /\
    find_shp namelist = Some file /\
    (read_file zip file = None \/
     exists study_extent,
       read_file zip file = Some study_extent /\
       to_crs study_extent 4326 = None).

(* ================================================================== *)
(** ** Facts about the raster algebra *)

Lemma Qlt_bool_iff (a b : Q) : Qlt_bool a b = true <-> a < b.
Proof.
  unfold Qlt_bool. rewrite negb_true_iff.
  split; intro H.
  - apply Qnot_le_lt. intro Hle. apply Qle_bool_iff in Hle. congruence.
  - destruct (Qle_bool b a) eqn:E; [|reflexivity].
    apply Qle_bool_iff in E. exfalso. apply (Qlt_not_le _ _ H E).
Qed.

Lemma Qlt_bool_false_iff (a b : Q) : Qlt_bool a b = false <-> b <= a.
Proof.
  unfold Qlt_bool. rewrite negb_false_iff. apply Qle_bool_iff.
Qed.

(** [selfMask] after a comparison keeps the ones and masks the zeros. *)
Lemma selfMask_indicator (r : raster) (xy : coord) (b : bool) :
  r xy = Some (if b then 1 else 0) ->
  EE.selfMask r xy = if b then Some 1 else None.
Proof.
  intro H. unfold EE.selfMask, EE.updateMask. rewrite H.
  destruct b; reflexivity.
Qed.

(** The water mask, pixel by pixel. *)
Lemma water_mask_pixel (image : raster) (threshold : Q) (xy : coord) :
  water_mask image threshold xy =
  match image xy with
  | Some v => if Qlt_bool threshold v then Some 1 else None
  | None => None
  end.
Proof.
  unfold water_mask, EE.rename.
  destruct (image xy) as [v|] eqn:E.
  - apply selfMask_indicator. unfold EE.gt. now rewrite E.
  - unfold EE.selfMask, EE.updateMask, EE.gt. now rewrite E.
Qed.

(** The flood mask, pixel by pixel. *)
Lemma flood_extent_pixel (pre post : raster) (xy : coord) :
  flood_extent pre post xy =
  match post xy, pre xy with
  | Some v, Some u =>
      if Qlt_bool cutoff v && Qlt_bool u cutoff then Some 1 else None
  | _, _ => None
  end.
Proof.
  unfold flood_extent.
  unfold EE.updateMask at 1. rewrite water_mask_pixel.
  destruct (post xy) as [v|]; [|reflexivity].
  destruct (pre xy) as [u|] eqn:E.
  - rewrite (selfMask_indicator (EE.lt pre cutoff) xy (Qlt_bool u cutoff))
      by (unfold EE.lt; now rewrite E).
    destruct (Qlt_bool cutoff v), (Qlt_bool u cutoff); reflexivity.
  - unfold EE.selfMask, EE.updateMask, EE.lt. rewrite E.
    destruct (Qlt_bool cutoff v); reflexivity.
Qed.

(** X1: the flood mask holds exactly the post-event water pixels whose
    pre-event index has a value strictly below the cutoff. *)
Lemma flood_extent_iff (pre post : raster) (xy : coord) :
  present (flood_extent pre post xy) = true <->
  present (water_mask post cutoff xy) = true /\
  exists u, pre xy = Some u /\ u < cutoff.
Proof.
  rewrite flood_extent_pixel, water_mask_pixel.
  destruct (post xy) as [v|], (pre xy) as [u|]; simpl;
    try (split; [discriminate | intros (H & u' & Hu & _); discriminate]).
  destruct (Qlt_bool cutoff v); simpl.
  - destruct (Qlt_bool u cutoff) eqn:Hu; simpl.
    + split; [|reflexivity]. intros _. split; [reflexivity|].
      exists u. split; [reflexivity | now apply Qlt_bool_iff].
    + split; [discriminate|]. intros (_ & u' & Hu' & Hlt).
      injection Hu' as <-. apply Qlt_bool_iff in Hlt. congruence.
  - split; [discriminate | intros (H & _); discriminate].
Qed.

(** At a pre-event index exactly on the cutoff the pixel is in neither the
    permanent-water mask nor the flood mask, whatever the post-event index. *)
Example flood_extent_on_cutoff :
  perm_water (flat cutoff) (0, 0)%Z = None /\
  water_mask (flat (1 # 2)) cutoff (0, 0)%Z = Some 1 /\
  flood_extent (flat cutoff) (flat (1 # 2)) (0, 0)%Z = None.
Proof. repeat split. Qed.

(** C1, as the claim states it, fails where the pre-event composite has no
    data: the pixel is post-event water and was not classified as water
    pre-event, yet it is not in the flood mask. *)
Lemma flood_extent_not_difference :
  let pre : raster := fun _ => None in
  let post : raster := flat (1 # 2) in
  ~ (present (flood_extent pre post (0, 0)%Z) = true <->
     present (water_mask post cutoff (0, 0)%Z) = true /\
     present (perm_water pre (0, 0)%Z) = false).
Proof.
  cbv zeta. intros [_ H].
  assert (E : present (flood_extent (fun _ => None) (flat (1 # 2)) (0, 0)%Z) = false)
    by reflexivity.
  rewrite H in E; [discriminate|].
  split; reflexivity.
Qed.

(** C1, amended: where the pre-event index is not exactly the cutoff, a
    pixel is in the flood mask iff it is in the post-event water mask, has
    pre-event data, and is not in the pre-event permanent-water mask. *)
Theorem flood_extent_difference (pre post : raster) (xy : coord) :
  (forall u, pre xy = Some u -> ~ u == cutoff) ->
  (present (flood_extent pre post xy) = true <->
   present (water_mask post cutoff xy) = true /\
   present (pre xy) = true /\
   present (perm_water pre xy) = false).
Proof.
  intro Hne. unfold perm_water.
  rewrite flood_extent_pixel, !water_mask_pixel.
  destruct (post xy) as [v|], (pre xy) as [u|] eqn:E; simpl;
    try (split; [discriminate | intros (? & ? & ?); discriminate]).
  specialize (Hne u eq_refl).
  destruct (Qlt_bool cutoff v) eqn:Hv; simpl.
  - destruct (Qlt_bool u cutoff) eqn:Hu, (Qlt_bool cutoff u) eqn:Hw; simpl.
    + apply Qlt_bool_iff in Hu, Hw. exfalso.
      apply (Qlt_irrefl u). now apply Qlt_trans with cutoff.
    + split; auto.
    + split; [discriminate | intros (_ & _ & ?); discriminate].
    + apply Qlt_bool_false_iff in Hu, Hw. exfalso. apply Hne.
      now apply Qle_antisym.
  - split; [discriminate | intros (? & _); discriminate].
Qed.

Lemma flood_extent_difference_witness :
  present (flood_extent (flat 0) (flat (1 # 2)) (0, 0)%Z) = true <->
  present (water_mask (flat (1 # 2)) cutoff (0, 0)%Z) = true /\
  present (flat 0 (0, 0)%Z) = true /\
  present (perm_water (flat 0) (0, 0)%Z) = false.
Proof.
  apply (flood_extent_difference (flat 0) (flat (1 # 2)) (0, 0)%Z).
  intros u Hu. injection Hu as <-. unfold cutoff. intro H. discriminate H.
Defined.

(** C2: every pixel of the flood mask is a pixel of the post-event water
    mask, with the same value. *)
Theorem flood_subset_post_water (pre post : raster) (xy : coord) :
  present (flood_extent pre post xy) = true ->
  present (water_mask post cutoff xy) = true /\
  water_mask post cutoff xy = flood_extent pre post xy.
Proof.
  rewrite flood_extent_pixel, water_mask_pixel.
  destruct (post xy) as [v|], (pre xy) as [u|]; simpl; try discriminate.
  destruct (Qlt_bool cutoff v), (Qlt_bool u cutoff); simpl;
    try discriminate.
  intros _. split; reflexivity.
Qed.

Lemma flood_subset_post_water_witness :
  present (water_mask (flat (1 # 2)) cutoff (3, 4)%Z) = true /\
  water_mask (flat (1 # 2)) cutoff (3, 4)%Z
  = flood_extent (flat (-1 # 5)) (flat (1 # 2)) (3, 4)%Z.
Proof.
  apply (flood_subset_post_water (flat (-1 # 5)) (flat (1 # 2)) (3, 4)%Z).
  reflexivity.
Defined.

(** C3: a pixel whose pre-event index is above the cutoff is masked out
    of the flood mask, whatever the post-event composite. *)
Theorem perm_water_never_flooded (pre post : raster) (xy : coord) (u : Q) :
  pre xy = Some u -> cutoff < u ->
  flood_extent pre post xy = None.
Proof.
  intros E Hu. rewrite flood_extent_pixel, E.
  destruct (post xy) as [v|]; [|reflexivity].
  destruct (Qlt_bool u cutoff) eqn:Hlt.
  - apply Qlt_bool_iff in Hlt. exfalso.
    apply (Qlt_irrefl u). now apply Qlt_trans with cutoff.
  - now rewrite andb_false_r.
Qed.

Lemma perm_water_never_flooded_witness :
  flood_extent (flat (3 # 10)) (flat (1 # 2)) (0, 0)%Z = None.
Proof.
  apply (perm_water_never_flooded (flat (3 # 10)) (flat (1 # 2)) (0, 0)%Z (3 # 10));
    reflexivity.
Defined.

(** C7: the water mask holds exactly the pixels with a value strictly
    above the threshold; each of them carries 1 and every other pixel is
    masked, none carries 0. *)
Theorem water_mask_classifies (image : raster) (threshold : Q) (xy : coord) :
  (present (water_mask image threshold xy) = true <->
   exists v, image xy = Some v /\ threshold < v) /\
  (water_mask image threshold xy = None \/
   water_mask image threshold xy = Some 1) /\
  ~ (exists z, water_mask image threshold xy = Some z /\ z == 0).
Proof.
  rewrite water_mask_pixel.
  destruct (image xy) as [v|]; simpl.
  - destruct (Qlt_bool threshold v) eqn:Hv; simpl.
    + repeat split.
      * intros _. exists v. split; [reflexivity | now apply Qlt_bool_iff].
      * now right.
      * intros (z & Hz & Hz0). injection Hz as <-. discriminate Hz0.
    + repeat split.
      * discriminate.
      * intros (v' & Hv' & Hlt). injection Hv' as <-.
        apply Qlt_bool_iff in Hlt. congruence.
      * now left.
      * intros (z & Hz & _). discriminate.
  - repeat split.
    + discriminate.
    + intros (v & Hv & _). discriminate.
    + now left.
    + intros (z & Hz & _). discriminate.
Qed.

(** The quotient (x - y) / (x + y) of two non-negative numbers that do
    not sum to zero lies between -1 and 1. *)
Lemma normalized_quotient_bounds (x y : Q) :
  0 <= x -> 0 <= y -> ~ x + y == 0 ->
  -1 <= (x - y) / (x + y) /\ (x - y) / (x + y) <= 1.
Proof.
  intros Hx Hy Hs.
  assert (Hpos : 0 < x + y).
  { destruct (Qlt_le_dec 0 (x + y)) as [H|H]; [exact H|].
    exfalso. apply Hs. apply Qle_antisym; [exact H|].
    rewrite <- (Qplus_0_l 0). now apply Qplus_le_compat. }
  split.
  - apply Qle_shift_div_l; [exact Hpos|]. lra.
  - apply Qle_shift_div_r; [exact Hpos|]. lra.
Qed.

Lemma normalizedDifference_bounds (a b : raster) (xy : coord) (v : Q) :
  EE.normalizedDifference a b xy = Some v -> -1 <= v /\ v <= 1.
Proof.
  unfold EE.normalizedDifference.
  destruct (a xy) as [x|], (b xy) as [y|]; try discriminate.
  destruct (Qlt_bool x 0) eqn:Hx; [discriminate|].
  destruct (Qlt_bool y 0) eqn:Hy; [discriminate|]. simpl.
  destruct (Qeq_bool (x + y) 0) eqn:Hs; [discriminate|].
  intro H. injection H as <-.
  apply normalized_quotient_bounds.
  - now apply Qlt_bool_false_iff.
  - now apply Qlt_bool_false_iff.
  - now apply Qeq_bool_neq.
Qed.

(** C8: the MNDWI band that [calculate_mndwi] adds lies in [-1, 1] at
    every pixel where it has a value. *)
Theorem calculate_mndwi_range (image : Scene) (xy : coord) (v : Q) :
  MNDWI (calculate_mndwi image) xy = Some v -> -1 <= v /\ v <= 1.
Proof.
  unfold calculate_mndwi, EE.rename. simpl.
  apply normalizedDifference_bounds.
Qed.

Lemma calculate_mndwi_range_witness :
  -1 <= 200 # 400 /\ 200 # 400 <= 1.
Proof.
  apply (calculate_mndwi_range demo_scene (0, 0)%Z (200 # 400)).
  reflexivity.
Defined.

(** The mean of values that all lie in an interval lies in it too. *)
Lemma Qsum_bounds (lo hi : Q) (vs : list Q) :
  Forall (fun v => lo <= v /\ v <= hi) vs ->
  inject_Z (Z.of_nat (List.length vs)) * lo <= EE.Qsum vs /\
  EE.Qsum vs <= inject_Z (Z.of_nat (List.length vs)) * hi.
Proof.
  induction 1 as [|v vs [Hlo Hhi] _ [IHlo IHhi]].
  - change (inject_Z (Z.of_nat (List.length (@nil Q)))) with 0.
    change (EE.Qsum []) with 0. split; lra.
  - change (EE.Qsum (v :: vs)) with (v + EE.Qsum vs).
    change (List.length (v :: vs)) with (S (List.length vs)).
    rewrite Nat2Z.inj_succ. unfold Z.succ. rewrite inject_Z_plus.
    change (inject_Z 1) with 1.
    split; lra.
Qed.

Lemma valid_at_Forall (Pv : Q -> Prop) (rs : list raster) (xy : coord) :
  (forall r v, In r rs -> r xy = Some v -> Pv v) ->
  Forall Pv (EE.valid_at rs xy).
Proof.
  induction rs as [|r rs IH]; intro H; simpl.
  - constructor.
  - destruct (r xy) as [v|] eqn:E.
    + constructor.
      * apply (H r v); [now left | exact E].
      * apply IH. intros r' v' Hin. apply H. now right.
    + apply IH. intros r' v' Hin. apply H. now right.
Qed.

Lemma mean_bounds (lo hi : Q) (rs : list raster) (xy : coord) (m : Q) :
  (forall r v, In r rs -> r xy = Some v -> lo <= v /\ v <= hi) ->
  EE.mean rs xy = Some m -> lo <= m /\ m <= hi.
Proof.
  intros H. unfold EE.mean.
  pose proof (valid_at_Forall _ rs xy H) as HF.
  destruct (EE.valid_at rs xy) as [|v vs] eqn:E; [discriminate|].
  intro Hm. injection Hm as <-.
  apply Qsum_bounds in HF. destruct HF as [Hlo Hhi].
  assert (Hn : 0 < inject_Z (Z.of_nat (List.length (v :: vs)))).
  { change 0 with (inject_Z 0). rewrite <- Zlt_Qlt. simpl List.length. lia. }
  split.
  - apply Qle_shift_div_l; [exact Hn|]. now rewrite Qmult_comm.
  - apply Qle_shift_div_r; [exact Hn|]. now rewrite Qmult_comm.
Qed.

(** X2: the mean index composite of a collection stays in [-1, 1] as
    well. *)
Lemma mndwi_composite_range (scenes : list Scene) (xy : coord) (m : Q) :
  mndwi_composite scenes xy = Some m -> -1 <= m /\ m <= 1.
Proof.
  unfold mndwi_composite. apply mean_bounds.
  intros r v Hin Hr.
  rewrite map_map in Hin. apply in_map_iff in Hin.
  destruct Hin as (image & <- & _).
  revert Hr. unfold calculate_mndwi, EE.rename. simpl.
  apply normalizedDifference_bounds.
Qed.

(* ================================================================== *)
(** ** Facts about the render pass *)

Section RenderPass.

Context {P : Platform}.

Lemma find_shp_absent (namelist : list string) :
  (forall file, In file namelist -> endswith file ".shp" = false) ->
  find_shp namelist = None.
Proof.
  induction namelist as [|file rest IH]; intro H; simpl.
  - reflexivity.
  - rewrite (H file) by now left.
    apply IH. intros f Hf. apply H. now right.
Qed.

Lemma s2_clipped_empty (roi : Geometry) (s e : date) :
  filterBounds roi (filterDate s e catalog) = [] ->
  s2_clipped roi s e = [].
Proof. unfold s2_clipped. now intros ->. Qed.

(** What [get_S2] does, by whether the clipped collection is empty. *)
Lemma get_S2_run (roi : Geometry) (s e : date) (w : World) :
  get_S2 roi s e w =
  match s2_clipped roi s e with
  | [] => Returned (None, None)
                   (mkWorld (Map w) (log w ++ [GetInfo roi s e; no_images s e]))
  | c => Returned (Some (rgb_composite roi s e), Some c)
                  (mkWorld (Map w) (log w ++ [GetInfo roi s e]))
  end.
Proof.
  unfold get_S2, rgb_composite, no_images, bind, emit, ret.
  destruct (s2_clipped roi s e) as [|x c]; simpl.
  - now rewrite <- app_assoc.
  - reflexivity.
Qed.

(** [flood_layers] always returns, and leaves [after_flood_layers]. *)
Lemma flood_layers_run (roi : Geometry) (s e s' e' : date) (w : World) :
  flood_layers roi s e s' e' w =
  Returned tt (after_flood_layers roi s e s' e' w).
Proof.
  unfold flood_layers, after_flood_layers, layers_added, events_logged,
    legend_after.
  unfold bind at 1. rewrite get_S2_run.
  destruct (s2_clipped roi s e) as [|x c] eqn:Epre.
  - unfold ret. destruct w as [[ctr z ls lg] lg']; simpl.
    now rewrite app_nil_r.
  - unfold bind at 1. unfold addLayer at 1. cbn [Map log].
    unfold bind at 1. unfold deref, ret at 1.
    unfold bind at 1. rewrite get_S2_run.
    destruct (s2_clipped roi s' e') as [|x' c'] eqn:Epost.
    + unfold ret. cbn [Map log center zoom layers legend].
      now rewrite <- app_assoc.
    + unfold bind, addLayer, add_legend, deref, ret.
      cbn [Map log center zoom layers legend].
      rewrite <- !app_assoc. reflexivity.
Qed.

(** [load_shapefile_from_zip] on an archive without a ".shp" member. *)
Lemma load_shapefile_run_absent (zip : Upload) (namelist : list string) (w : World) :
  zip_namelist zip = Some namelist ->
  find_shp namelist = None ->
  load_shapefile_from_zip zip w =
  Returned None (mkWorld (Map w) (log w ++ [shp_not_found])).
Proof.
  intros Hzip Hshp. unfold load_shapefile_from_zip.
  rewrite Hzip, Hshp. reflexivity.
Qed.

(** C4: when the filtered collection is empty, [get_S2] returns
    [(None, None)] after one warning and leaves the map alone; a pass
    whose pre-event range is empty adds no layer, and a pass whose
    post-event range is empty adds at most the pre-event composite. *)
Theorem get_S2_no_data (roi : Geometry) (s e : date) :
  filterBounds roi (filterDate s e catalog) = [] ->
  (forall w,
      get_S2 roi s e w =
      Returned (None, None)
               (mkWorld (Map w)
                        (log w ++ [GetInfo roi s e;
                                   StWarning (no_images_message (strftime s) (strftime e))])))
  /\ (forall s' e' w,
         Map (world_of (flood_layers roi s e s' e' w)) = Map w)
  /\ (forall s0 e0 w,
         layers (Map (world_of (flood_layers roi s0 e0 s e w))) =
         (layers (Map w) ++
            match s2_clipped roi s0 e0 with
            | [] => []
            | _ => [mkLayer (Visual (rgb_composite roi s0 e0)) no_vis "Pre-flood RGB"]
            end)%list).
Proof.
  intro Hempty. apply s2_clipped_empty in Hempty.
  split; [|split].
  - intro w. rewrite get_S2_run, Hempty. reflexivity.
  - intros s' e' w. rewrite flood_layers_run.
    unfold after_flood_layers, layers_added, legend_after.
    rewrite Hempty. destruct w as [[ctr z ls lg] lg']; simpl.
    now rewrite app_nil_r.
  - intros s0 e0 w. rewrite flood_layers_run.
    unfold after_flood_layers, layers_added. rewrite Hempty. simpl.
    destruct (s2_clipped roi s0 e0); reflexivity.
Qed.

(** C5, amended: [flood_layers] keeps every layer that was on the map
    and adds, after them, nothing when the pre-event query is empty
    (the post-event query is then not issued), the pre-event composite
    alone when only the post-event query is empty, and all three layers
    when both return data. *)
Theorem flood_layers_adds (roi : Geometry) (s e s' e' : date) (w : World) :
  exists w',
    flood_layers roi s e s' e' w = Returned tt w' /\
    layers (Map w') =
    (layers (Map w) ++
       match s2_clipped roi s e, s2_clipped roi s' e' with
       | [], _ => []
       | _ :: _, [] =>
           [mkLayer (Visual (rgb_composite roi s e)) no_vis "Pre-flood RGB"]
       | pre, post =>
           [mkLayer (Visual (rgb_composite roi s e)) no_vis "Pre-flood RGB";
            mkLayer (Visual (rgb_composite roi s' e')) no_vis "Post-flood RGB";
            mkLayer (Mask (flood_extent (mndwi_composite pre) (mndwi_composite post)))
                    water_Viz "Flood Extent"]
       end)%list /\
    log w' =
    (log w ++
       match s2_clipped roi s e, s2_clipped roi s' e' with
       | [], _ => [GetInfo roi s e; no_images s e]
       | _, [] => [GetInfo roi s e; GetInfo roi s' e'; no_images s' e']
       | _, _ => [GetInfo roi s e; GetInfo roi s' e']
       end)%list.
Proof.
  exists (after_flood_layers roi s e s' e' w).
  split; [apply flood_layers_run|].
  unfold after_flood_layers, layers_added, events_logged. simpl.
  destruct (s2_clipped roi s e), (s2_clipped roi s' e'); split; reflexivity.
Qed.

(** C6, amended: for an archive that opens and extracts and has no
    member ending in ".shp", the loader returns [None] after one error
    message and does not raise; the pass then only renders the map it
    started with: no file is read, nothing is reprojected or queried, no
    layer is added. *)
Theorem load_shapefile_missing (zip : Upload) (namelist : list string)
        (start_date end_date start_date_post end_date_post : date) :
  zip_namelist zip = Some namelist ->
  (forall file, In file namelist -> endswith file ".shp" = false) ->
  (forall w,
      load_shapefile_from_zip zip w =
      Returned None
               (mkWorld (Map w)
                        (log w ++ [StError "Shapefile (.shp) not found in the uploaded ZIP file."])))
  /\ (forall w,
         script (Some zip) start_date end_date start_date_post end_date_post w =
         Returned tt
                  (mkWorld (Map w)
                           (log w ++ [StError "Shapefile (.shp) not found in the uploaded ZIP file.";
                                      ToStreamlit (Map w)]))).
Proof.
  intros Hzip Hnames. apply find_shp_absent in Hnames.
  split; intro w.
  - apply (load_shapefile_run_absent zip namelist w Hzip Hnames).
  - unfold script. unfold bind at 1. unfold bind at 1.
    rewrite (load_shapefile_run_absent zip namelist w Hzip Hnames).
    unfold ret, to_streamlit, shp_not_found. simpl.
    now rewrite <- app_assoc.
Qed.

(** C10: [get_S2] always returns a pair, with both components [None]
    or both not; so the first is [None] exactly when the second is, and
    [flood_layers], which tests the first only, never raises. *)
Theorem get_S2_both_or_neither (roi : Geometry) (s e : date) (w : World) :
  (exists vis coll w',
      get_S2 roi s e w = Returned (vis, coll) w' /\
      (vis = None <-> coll = None) /\
      ((vis = None /\ coll = None) \/
       (vis = Some (rgb_composite roi s e) /\ coll = Some (s2_clipped roi s e))))
  /\ (forall s' e', exists w', flood_layers roi s e s' e' w = Returned tt w').
Proof.
  split.
  - rewrite get_S2_run.
    destruct (s2_clipped roi s e) as [|x c]; do 3 eexists;
      (split; [reflexivity|]).
    + split; [tauto | left; tauto].
    + split; [split; discriminate | right; split; reflexivity].
  - intros s' e'. eexists. apply flood_layers_run.
Qed.

End RenderPass.

(** C4 on the concrete platform: no scene before day 10. *)
Lemma get_S2_no_data_witness :
  get_S2 (P := demo) tt 1%Z 2%Z initial =
  Returned (None, None)
           (mkWorld (P := demo) default_Map
                    [GetInfo (P := demo) tt 1%Z 2%Z;
                     StWarning "No Sentinel-2 images found for the selected date range: 2024-01-23 to 2024-01-23"]).
Proof.
  apply (proj1 (get_S2_no_data (P := demo) tt 1%Z 2%Z eq_refl) initial).
Defined.

(** C6 on the concrete platform: an archive without the geometry file. *)
Lemma load_shapefile_missing_witness :
  script (P := demo) (Some ["aoi.shx"; "aoi.dbf"; "aoi.prj"; "aoi.SHP"])
         1%Z 2%Z 10%Z 11%Z initial =
  Returned tt
           (mkWorld (P := demo) default_Map
                    [StError "Shapefile (.shp) not found in the uploaded ZIP file.";
                     ToStreamlit default_Map]).
Proof.
  refine (proj2 (load_shapefile_missing (P := demo)
                   ["aoi.shx"; "aoi.dbf"; "aoi.prj"; "aoi.SHP"]
                   ["aoi.shx"; "aoi.dbf"; "aoi.prj"; "aoi.SHP"]
                   1%Z 2%Z 10%Z 11%Z eq_refl _) initial).
  intros file Hin. simpl in Hin.
  destruct Hin as [<- | [<- | [<- | [<- | []]]]]; reflexivity.
Defined.

(** C6, as the claim states it, fails: an encrypted archive lists its
    members, none of them ends in ".shp", and the loader raises at
    [extractall] (line 68) without a message; so does the pass. *)
Lemma encrypted_archive_raises :
  @zip_members demo_archives encrypted_archive = Some ["readme.txt"; "aoi.dbf"] /\
  Forall (fun f => endswith f ".shp" = false) ["readme.txt"; "aoi.dbf"] /\
  load_shapefile_from_zip (P := demo_archives) encrypted_archive initial
  = Raised initial /\
  script (P := demo_archives) (Some encrypted_archive) 1%Z 2%Z 10%Z 11%Z initial
  = Raised initial.
Proof.
  split; [reflexivity|].
  split; [repeat constructor|].
  split; reflexivity.
Qed.

(** C5, as the claim states it, fails: the pre-event range has no scene,
    the post-event range has one, and the post-event composite is not on
    the map at the end of the pass. *)
Lemma post_layer_skipped_with_pre :
  s2_clipped (P := demo) tt 10%Z 11%Z <> [] /\
  layer_names (world_of (script (P := demo) (Some ["aoi.shp"]) 1%Z 2%Z 10%Z 11%Z initial))
  = ["AOI"] /\
  ~ In "Post-flood RGB"
       (layer_names (world_of (script (P := demo) (Some ["aoi.shp"]) 1%Z 2%Z 10%Z 11%Z initial))).
Proof.
  split; [discriminate|].
  split; [reflexivity|].
  intro H. simpl in H. destruct H as [H | []]. discriminate H.
Qed.

(* ================================================================== *)
(** ** More about the index and the masks *)

(** X3: a pixel whose index did not rise from the pre-event to the
    post-event composite is never in the flood mask. *)
Theorem flood_needs_rise (pre post : raster) (xy : coord) (u v : Q) :
  pre xy = Some u -> post xy = Some v -> v <= u ->
  flood_extent pre post xy = None.
Proof.
  intros Hpre Hpost Hle.
  rewrite flood_extent_pixel, Hpre, Hpost.
  destruct (Qlt_bool cutoff v) eqn:Hv, (Qlt_bool u cutoff) eqn:Hu;
    try reflexivity.
  apply Qlt_bool_iff in Hv, Hu. exfalso.
  apply (Qlt_irrefl cutoff).
  apply Qlt_le_trans with v; [exact Hv|].
  apply Qle_trans with u; [exact Hle | now apply Qlt_le_weak].
Qed.

Lemma flood_needs_rise_witness :
  flood_extent (flat (-1 # 2)) (flat (-3 # 5)) (2, 7)%Z = None.
Proof.
  apply (flood_needs_rise (flat (-1 # 2)) (flat (-3 # 5)) (2, 7)%Z (-1 # 2) (-3 # 5));
    [reflexivity | reflexivity | discriminate].
Defined.

(** X4: raising the threshold can only shrink the water mask. *)
Theorem water_mask_antitone (image : raster) (t1 t2 : Q) (xy : coord) :
  t1 <= t2 ->
  present (water_mask image t2 xy) = true ->
  present (water_mask image t1 xy) = true.
Proof.
  intro Hle. rewrite !water_mask_pixel.
  destruct (image xy) as [v|]; [|discriminate].
  destruct (Qlt_bool t2 v) eqn:H2; [|discriminate]. intros _.
  apply Qlt_bool_iff in H2.
  assert (H1 : Qlt_bool t1 v = true)
    by (apply Qlt_bool_iff; now apply Qle_lt_trans with t2).
  now rewrite H1.
Qed.

Lemma water_mask_antitone_witness :
  present (water_mask (flat (1 # 2)) (1 # 100) (0, 0)%Z) = true.
Proof.
  apply (water_mask_antitone (flat (1 # 2)) (1 # 100) (1 # 4) (0, 0)%Z);
    [discriminate | reflexivity].
Defined.

(** The mean of one value is that value. *)
Lemma mean_single (r : raster) (xy : coord) :
  match r xy, EE.mean [r] xy with
  | Some v, Some m => m == v
  | None, None => True
  | _, _ => False
  end.
Proof.
  unfold EE.mean. simpl. destruct (r xy) as [v|]; [|exact I].
  unfold EE.Qsum. simpl. field.
Qed.

(** X5: with a single scene in the collection, a pixel is classified as
    water exactly where both bands have non-negative values and
    99 * B3 > 101 * B11. *)
Theorem single_scene_water (image : Scene) (xy : coord) :
  present (water_mask (mndwi_composite [image]) cutoff xy) = true <->
  exists x y, B3 image xy = Some x /\ B11 image xy = Some y /\
              0 <= x /\ 0 <= y /\ (101 # 1) * y < (99 # 1) * x.
Proof.
  rewrite water_mask_pixel. unfold mndwi_composite. simpl map.
  pose proof (mean_single (MNDWI (calculate_mndwi image)) xy) as Hm.
  unfold calculate_mndwi, EE.rename in *. simpl MNDWI in *.
  unfold EE.normalizedDifference in *.
  destruct (B3 image xy) as [x|], (B11 image xy) as [y|];
    try (destruct (EE.mean _ xy); [contradiction|];
         split; [discriminate | intros (? & ? & ? & ? & _); discriminate]).
  destruct (Qlt_bool x 0) eqn:Hx; simpl in Hm.
  { destruct (EE.mean _ xy); [contradiction|].
    split; [discriminate|]. intros (x' & y' & Ex & Ey & H0 & _).
    injection Ex as <-. apply Qlt_bool_iff in Hx.
    exfalso. apply (Qlt_not_le _ _ Hx H0). }
  destruct (Qlt_bool y 0) eqn:Hy; simpl in Hm.
  { destruct (EE.mean _ xy); [contradiction|].
    split; [discriminate|]. intros (x' & y' & Ex & Ey & _ & H0 & _).
    injection Ey as <-. apply Qlt_bool_iff in Hy.
    exfalso. apply (Qlt_not_le _ _ Hy H0). }
  apply Qlt_bool_false_iff in Hx, Hy.
  destruct (Qeq_bool (x + y) 0) eqn:Hs.
  { destruct (EE.mean _ xy); [contradiction|].
    split; [discriminate|]. intros (x' & y' & Ex & Ey & _ & _ & Hlt).
    injection Ex as <-. injection Ey as <-.
    apply Qeq_bool_iff in Hs. exfalso. lra. }
  apply Qeq_bool_neq in Hs.
  assert (Hpos : 0 < x + y).
  { destruct (Qlt_le_dec 0 (x + y)) as [H|H]; [exact H|].
    exfalso. apply Hs. lra. }
  destruct (EE.mean _ xy) as [m|]; [|contradiction].
  assert (Hiff : cutoff < m <-> (101 # 1) * y < (99 # 1) * x).
  { rewrite Hm. unfold cutoff. split; intro H.
    - assert (H' : (1 # 100) * (x + y) < x - y).
      { apply Qmult_lt_r with (z := / (x + y)).
        - now apply Qinv_lt_0_compat.
        - unfold Qdiv in H.
          rewrite <- Qmult_assoc, Qmult_inv_r, Qmult_1_r by exact Hs.
          exact H. }
      lra.
    - apply Qlt_shift_div_l; [exact Hpos|]. lra. }
  destruct (Qlt_bool cutoff m) eqn:Hc; simpl.
  - split; [|reflexivity]. intros _. exists x, y.
    repeat split; try assumption. apply Hiff. now apply Qlt_bool_iff.
  - split; [discriminate|]. intros (x' & y' & Ex & Ey & _ & _ & Hlt).
    injection Ex as <-. injection Ey as <-.
    apply Hiff in Hlt. apply Qlt_bool_iff in Hlt. congruence.
Qed.

Lemma valid_at_nil_iff (rs : list raster) (xy : coord) :
  EE.valid_at rs xy = [] <-> forall r, In r rs -> r xy = None.
Proof.
  induction rs as [|r rs IH]; simpl.
  - split; [intros _ r [] | reflexivity].
  - destruct (r xy) as [v|] eqn:E.
    + split; [discriminate|]. intro H.
      specialize (H r (or_introl eq_refl)). congruence.
    + rewrite IH. split.
      * intros H r' [<- | Hin]; [exact E | now apply H].
      * intros H r' Hin. apply H. now right.
Qed.

Lemma mean_masked_iff (rs : list raster) (xy : coord) :
  EE.mean rs xy = None <-> forall r, In r rs -> r xy = None.
Proof.
  rewrite <- valid_at_nil_iff. unfold EE.mean.
  destruct (EE.valid_at rs xy); split; (reflexivity || discriminate).
Qed.

Lemma mean_present_iff (rs : list raster) (xy : coord) :
  present (EE.mean rs xy) = true <->
  exists r, In r rs /\ present (r xy) = true.
Proof.
  split.
  - intro H.
    destruct (EE.mean rs xy) as [m|] eqn:E; [clear H | discriminate].
    induction rs as [|r rs IH].
    + discriminate E.
    + destruct (r xy) as [v|] eqn:Er.
      * exists r. split; [now left | now rewrite Er].
      * assert (E' : EE.mean rs xy = Some m).
        { revert E. unfold EE.mean. simpl. now rewrite Er. }
        destruct (IH E') as (r' & Hin & Hp).
        exists r'. split; [now right | exact Hp].
  - intros (r & Hin & Hp).
    destruct (EE.mean rs xy) as [m|] eqn:E; [reflexivity|].
    rewrite mean_masked_iff in E. rewrite (E r Hin) in Hp. discriminate.
Qed.

(** X6: the mean index composite has a value at a pixel exactly where
    the index of at least one scene of the collection has one. *)
Theorem mndwi_composite_present (scenes : list Scene) (xy : coord) :
  present (mndwi_composite scenes xy) = true <->
  exists image, In image scenes /\
                present (MNDWI (calculate_mndwi image) xy) = true.
Proof.
  unfold mndwi_composite. rewrite mean_present_iff, map_map. split.
  - intros (r & Hin & Hp). apply in_map_iff in Hin.
    destruct Hin as (image & <- & Hin). now exists image.
  - intros (image & Hin & Hp).
    exists (MNDWI (calculate_mndwi image)). split; [|exact Hp].
    apply in_map_iff. now exists image.
Qed.

(** The composite of a dry and a wet scene, as an instance of
    [mndwi_composite_range]. *)
Lemma mndwi_composite_range_witness :
  -1 <= 0 # 320000 /\ 0 # 320000 <= 1.
Proof.
  apply (mndwi_composite_range [dry_scene; wet_scene] (0, 0)%Z (0 # 320000)).
  reflexivity.
Defined.

(* ================================================================== *)
(** ** More about the boundary loader *)

Lemma substring_skip (p s : string) (m : nat) :
  substring (String.length p) m (p ++ s) = substring 0 m s.
Proof. induction p as [|c p IH]; simpl; [reflexivity | exact IH]. Qed.

Lemma substring_all (s : string) : substring 0 (String.length s) s = s.
Proof. induction s as [|c s IH]; simpl; [reflexivity | now rewrite IH]. Qed.

Lemma length_append (p s : string) :
  String.length (p ++ s) = (String.length p + String.length s)%nat.
Proof. induction p as [|c p IH]; simpl; [reflexivity | now rewrite IH]. Qed.

Lemma substring_split (s : string) (k : nat) :
  (k <= String.length s)%nat ->
  s = substring 0 k s ++ substring k (String.length s - k) s.
Proof.
  revert k. induction s as [|c s IH]; intros k Hk.
  - simpl in Hk. assert (k = 0)%nat by lia. subst. reflexivity.
  - destruct k as [|k].
    + simpl. now rewrite substring_all.
    + simpl in Hk. simpl. f_equal. apply IH. lia.
Qed.

(** [endswith] holds exactly of the strings that are some prefix
    followed by the suffix. *)
Lemma endswith_iff (s suffix : string) :
  endswith s suffix = true <-> exists p, s = p ++ suffix.
Proof.
  unfold endswith. rewrite andb_true_iff, Nat.leb_le, String.eqb_eq. split.
  - intros [Hle Hsub].
    exists (substring 0 (String.length s - String.length suffix) s).
    assert (Hk : (String.length s - String.length suffix <= String.length s)%nat)
      by lia.
    pose proof (substring_split s _ Hk) as H.
    replace (String.length s - (String.length s - String.length suffix))%nat
      with (String.length suffix) in H by lia.
    now rewrite Hsub in H.
  - intros [p ->]. rewrite length_append. split; [lia|].
    replace (String.length p + String.length suffix - String.length suffix)%nat
      with (String.length p) by lia.
    now rewrite substring_skip, substring_all.
Qed.

(** [find_shp] returns the first member, in archive order, whose name
    ends in ".shp", and nothing exactly when no member does. *)
Lemma find_shp_first (namelist : list string) :
  match find_shp namelist with
  | Some file =>
      exists before after,
        namelist = (before ++ file :: after)%list /\
        endswith file ".shp" = true /\
        Forall (fun f => endswith f ".shp" = false) before
  | None => Forall (fun f => endswith f ".shp" = false) namelist
  end.
Proof.
  induction namelist as [|file rest IH]; simpl.
  - constructor.
  - destruct (endswith file ".shp") eqn:E.
    + exists [], rest. repeat split; [exact E | constructor].
    + destruct (find_shp rest) as [found|].
      * destruct IH as (before & after & -> & Hf & Hb).
        exists (file :: before), after. repeat split; [exact Hf|].
        now constructor.
      * now constructor.
Qed.

Lemma find_shp_ends (namelist : list string) (file : string) :
  find_shp namelist = Some file -> endswith file ".shp" = true.
Proof.
  induction namelist as [|f rest IH]; simpl; [discriminate|].
  destruct (endswith f ".shp") eqn:E; [|exact IH].
  intro H. now injection H as <-.
Qed.

(** A found member has a name that Python takes as true. *)
Lemma find_shp_truthy (namelist : list string) (file : string) :
  find_shp namelist = Some file -> truthy (Some file) = true.
Proof.
  intro H. apply find_shp_ends in H.
  simpl. destruct file; [discriminate H | reflexivity].
Qed.

Section Loader.

Context {P : Platform}.

(** What the loader does, case by case. *)
Lemma load_shapefile_run (zip : Upload) (w : World) :
  load_shapefile_from_zip zip w =
  match zip_namelist zip with
  | None => Raised w
  | Some namelist =>
      match find_shp namelist with
      | None => Returned None (mkWorld (Map w) (log w ++ [shp_not_found]))
      | Some file =>
          match read_file zip file with
          | Some study_extent =>
              Returned (Some study_extent)
                       (mkWorld (Map w) (log w ++ [ReadFile file]))
          | None => Raised (mkWorld (Map w) (log w ++ [ReadFile file]))
          end
      end
  end.
Proof.
  unfold load_shapefile_from_zip.
  destruct (zip_namelist zip) as [namelist|]; [|reflexivity].
  destruct (find_shp namelist) as [file|] eqn:E; [|reflexivity].
  rewrite (find_shp_truthy namelist file E).
  unfold call, bind, emit, ret, raise.
  destruct (read_file zip file); reflexivity.
Qed.

(** X7: the loader returns [None] exactly for the archives that open and
    have no member whose name ends in ".shp". *)
Theorem loader_none_iff (zip : Upload) (w : World) :
  (exists w', load_shapefile_from_zip zip w = Returned None w') <->
  exists namelist,
    zip_namelist zip = Some namelist /\
    Forall (fun f => endswith f ".shp" = false) namelist.
Proof.
  rewrite load_shapefile_run. split.
  - intros [w' H].
    destruct (zip_namelist zip) as [namelist|]; [|discriminate].
    exists namelist. split; [reflexivity|].
    pose proof (find_shp_first namelist) as Hf.
    destruct (find_shp namelist) as [file|]; [|exact Hf].
    destruct (read_file zip file); discriminate.
  - intros (namelist & -> & Hall).
    rewrite find_shp_absent; [eexists; reflexivity|].
    now apply Forall_forall.
Qed.

(** X8: when the loader returns a boundary, it is what [read_file]
    made of the first member, in archive order, whose name is some stem
    followed by ".shp"; reading it is all that was logged. *)
Theorem loader_reads_first (zip : Upload) (w w' : World)
        (study_extent : GeoDataFrame) :
  load_shapefile_from_zip zip w = Returned (Some study_extent) w' ->
  exists (before : list string) (stem : string) (after : list string),
    zip_namelist zip = Some (before ++ (stem ++ ".shp")%string :: after)%list /\
    Forall (fun f => endswith f ".shp" = false) before /\
    read_file zip (stem ++ ".shp") = Some study_extent /\
    w' = mkWorld (Map w) (log w ++ [ReadFile (stem ++ ".shp")]).
Proof.
  rewrite load_shapefile_run.
  destruct (zip_namelist zip) as [namelist|]; [|discriminate].
  pose proof (find_shp_first namelist) as Hf.
  destruct (find_shp namelist) as [file|]; [|discriminate].
  destruct Hf as (before & after & -> & Hends & Hbefore).
  apply endswith_iff in Hends. destruct Hends as [stem ->].
  destruct (read_file zip (stem ++ ".shp")) as [g|] eqn:Er; [|discriminate].
  intro H. injection H as <- <-.
  exists before, stem, after. repeat split; assumption.
Qed.

End Loader.

Lemma loader_reads_first_witness :
  exists (before : list string) (stem : string) (after : list string),
    @zip_namelist demo_bounded (Some ["a.dbf"; "a.shp"; "b.shp"])
    = Some (before ++ (stem ++ ".shp")%string :: after)%list /\
    Forall (fun f => endswith f ".shp" = false) before /\
    @read_file demo_bounded (Some ["a.dbf"; "a.shp"; "b.shp"]) (stem ++ ".shp")
    = Some "a.shp" /\
    mkWorld (P := demo_bounded) default_Map [ReadFile "a.shp"]
    = mkWorld (Map (initial (P := demo_bounded)))
              (log (initial (P := demo_bounded)) ++ [ReadFile (stem ++ ".shp")]).
Proof.
  apply (loader_reads_first (P := demo_bounded)
           (Some ["a.dbf"; "a.shp"; "b.shp"]) initial _ "a.shp").
  reflexivity.
Defined.

(* ================================================================== *)
(** ** More about the render pass *)

Section Pass.

Context {P : Platform}.

(** What one pass does, case by case. *)
Lemma script_run (uploaded_zip : option Upload) (d1 d2 d3 d4 : date) (w : World) :
  script uploaded_zip d1 d2 d3 d4 w =
  match uploaded_zip with
  | None => Returned tt (rendered w)
  | Some zip =>
      match load_shapefile_from_zip zip w with
      | Raised w1 => Raised w1
      | Returned None w1 => Returned tt (rendered w1)
      | Returned (Some study_extent) w1 =>
          match to_crs study_extent 4326 with
          | None => Raised (mkWorld (Map w1) (log w1 ++ [ToCrs 4326]))
          | Some reprojected =>
              Returned tt
                (rendered
                   (after_flood_layers
                      (geopandas_to_ee reprojected) d1 d2 d3 d4
                      (boundary_world reprojected (log w1 ++ [ToCrs 4326]))))
          end
      end
  end.
Proof.
  unfold script. destruct uploaded_zip as [zip|]; [|reflexivity].
  unfold bind at 1. unfold bind at 1.
  destruct (load_shapefile_from_zip zip w) as [[g|] w1|w1];
    [|reflexivity|reflexivity].
  unfold bind at 1. unfold call, bind at 1. unfold emit at 1.
  destruct (to_crs g 4326) as [g'|]; [|reflexivity].
  unfold ret at 1. unfold bind at 1. unfold set_Map at 1.
  unfold bind at 1. unfold addLayer at 1. cbn [Map log layers center zoom legend].
  rewrite flood_layers_run. reflexivity.
Qed.

Lemma layers_added_names (roi : Geometry) (d1 d2 d3 d4 : date) :
  map layer_name (layers_added roi d1 d2 d3 d4) =
  match s2_clipped roi d1 d2, s2_clipped roi d3 d4 with
  | [], _ => []
  | _ :: _, [] => ["Pre-flood RGB"]
  | _ :: _, _ :: _ => ["Pre-flood RGB"; "Post-flood RGB"; "Flood Extent"]
  end.
Proof.
  unfold layers_added.
  destruct (s2_clipped roi d1 d2), (s2_clipped roi d3 d4); reflexivity.
Qed.

(** X9: whatever is uploaded and whatever the date ranges, a pass that
    starts from the default map ends with no layer, or with the boundary
    alone, or the boundary and the pre-event composite, or all four layers,
    in this order. *)
Theorem script_layer_names (uploaded_zip : option Upload) (d1 d2 d3 d4 : date) :
  let names := layer_names (world_of (script uploaded_zip d1 d2 d3 d4 initial)) in
  names = [] \/
  names = ["AOI"] \/
  names = ["AOI"; "Pre-flood RGB"] \/
  names = ["AOI"; "Pre-flood RGB"; "Post-flood RGB"; "Flood Extent"].
Proof.
  cbv zeta. rewrite script_run.
  destruct uploaded_zip as [zip|]; [|now left].
  rewrite load_shapefile_run.
  destruct (zip_namelist zip) as [namelist|]; [|now left].
  destruct (find_shp namelist) as [file|]; [|now left].
  destruct (read_file zip file) as [g|]; [|now left].
  destruct (to_crs g 4326) as [g'|]; [|now left].
  right. unfold layer_names, world_of, rendered, after_flood_layers, boundary_world.
  cbn [Map layers]. rewrite map_app, layers_added_names. simpl.
  destruct (s2_clipped (geopandas_to_ee g') d1 d2),
    (s2_clipped (geopandas_to_ee g') d3 d4); auto.
Qed.

(** X10: for an archive whose first ".shp" member parses and reprojects,
    the pass reads that member, reprojects to EPSG:4326, rebuilds the map
    around the boundary at zoom 9 with the boundary as first layer, adds
    the layers of [flood_layers] and renders the result; the layers and
    the legend the map had before are gone. *)
Theorem script_with_boundary (zip : Upload) (namelist : list string)
        (file : string) (study_extent reprojected : GeoDataFrame)
        (d1 d2 d3 d4 : date) (w : World) :
  zip_namelist zip = Some namelist ->
  find_shp namelist = Some file ->
  read_file zip file = Some study_extent ->
  to_crs study_extent 4326 = Some reprojected ->
  let roi := geopandas_to_ee reprojected in
  let shown :=
    mkMap (centroid_mean reprojected) 9
          (mkLayer (AOI roi) (mkVis [] None None [] (Some "red")) "AOI"
           :: layers_added roi d1 d2 d3 d4)
          (legend_after roi d1 d2 d3 d4 None) in
  script (Some zip) d1 d2 d3 d4 w =
  Returned tt
    (mkWorld shown
             (log w ++ [ReadFile file; ToCrs 4326]
                ++ events_logged roi d1 d2 d3 d4 ++ [ToStreamlit shown])%list).
Proof.
  intros Hzip Hshp Hread Hcrs. cbv zeta.
  rewrite script_run, load_shapefile_run, Hzip, Hshp, Hread, Hcrs.
  unfold rendered, after_flood_layers, boundary_world.
  cbn [Map log layers center zoom legend].
  f_equal. f_equal.
  rewrite <- !app_assoc. reflexivity.
Qed.

(** A pass whose boundary fails raises, and this is the world it leaves. *)
Lemma script_boundary_failure (zip : Upload) (d1 d2 d3 d4 : date) (w : World) :
  boundary_fails zip ->
  exists w',
    script (Some zip) d1 d2 d3 d4 w = Raised w' /\
    Map w' = Map w /\
    (log w' = log w \/
     exists file, log w' = (log w ++ [ReadFile file])%list \/
                  log w' = (log w ++ [ReadFile file; ToCrs 4326])%list).
Proof.
  intro Hfail. rewrite script_run, load_shapefile_run.
  destruct Hfail as [Hzip | (namelist & file & Hzip & Hshp & Hcase)].
  - rewrite Hzip. eexists. split; [reflexivity|].
    split; [reflexivity | now left].
  - rewrite Hzip, Hshp.
    destruct Hcase as [Hread | (study_extent & Hread & Hcrs)].
    + rewrite Hread. eexists. split; [reflexivity|]. cbn [Map log].
      split; [reflexivity|]. right. exists file. now left.
    + rewrite Hread, Hcrs. eexists. split; [reflexivity|]. cbn [Map log].
      split; [reflexivity|]. right. exists file. right.
      now rewrite <- app_assoc.
Qed.

(** X11: a pass raises whenever the archive does not open or extract,
    or its first ".shp" member does not parse, or the parsed boundary
    cannot be reprojected. *)
Theorem boundary_failure_raises (zip : Upload) (d1 d2 d3 d4 : date) (w : World) :
  boundary_fails zip ->
  exists w', script (Some zip) d1 d2 d3 d4 w = Raised w'.
Proof.
  intro Hfail.
  destruct (script_boundary_failure zip d1 d2 d3 d4 w Hfail) as (w' & H & _).
  now exists w'.
Qed.

(** X12: a pass that raises in one of these three ways has left the map
    as it was, shown no message, sent no query and rendered nothing: all
    it logged is the reading of the member and, if it got that far, the
    reprojection. *)
Theorem boundary_failure_leaves_map (zip : Upload) (d1 d2 d3 d4 : date)
        (w : World) :
  boundary_fails zip ->
  Map (world_of (script (Some zip) d1 d2 d3 d4 w)) = Map w /\
  (log (world_of (script (Some zip) d1 d2 d3 d4 w)) = log w \/
   exists file,
     log (world_of (script (Some zip) d1 d2 d3 d4 w))
     = (log w ++ [ReadFile file])%list \/
     log (world_of (script (Some zip) d1 d2 d3 d4 w))
     = (log w ++ [ReadFile file; ToCrs 4326])%list).
Proof.
  intro Hfail.
  destruct (script_boundary_failure zip d1 d2 d3 d4 w Hfail)
    as (w' & -> & Hmap & Hlog).
  split; assumption.
Qed.

Lemma events_logged_not_rendered (roi : Geometry) (d1 d2 d3 d4 : date) :
  existsb is_ToStreamlit (events_logged roi d1 d2 d3 d4) = false.
Proof.
  unfold events_logged, no_images.
  destruct (s2_clipped roi d1 d2), (s2_clipped roi d3 d4); reflexivity.
Qed.

(** X13: a pass that returns has rendered once, as its last step, and
    what it rendered is the map it ends with. *)
Theorem script_renders_last (uploaded_zip : option Upload) (d1 d2 d3 d4 : date)
        (w w' : World) :
  script uploaded_zip d1 d2 d3 d4 w = Returned tt w' ->
  exists events,
    log w' = (log w ++ events ++ [ToStreamlit (Map w')])%list /\
    existsb is_ToStreamlit events = false.
Proof.
  rewrite script_run.
  destruct uploaded_zip as [zip|].
  - rewrite load_shapefile_run.
    destruct (zip_namelist zip) as [namelist|]; [|discriminate].
    destruct (find_shp namelist) as [file|].
    + destruct (read_file zip file) as [g|]; [|discriminate].
      destruct (to_crs g 4326) as [g'|]; [|discriminate].
      intro H. injection H as <-.
      exists ([ReadFile file; ToCrs 4326]
                ++ events_logged (geopandas_to_ee g') d1 d2 d3 d4)%list.
      split.
      * unfold rendered, after_flood_layers, boundary_world.
        cbn [Map log]. rewrite <- !app_assoc. reflexivity.
      * rewrite existsb_app, events_logged_not_rendered. reflexivity.
    + intro H. injection H as <-. exists [shp_not_found].
      split; [|reflexivity].
      unfold rendered. cbn [Map log]. now rewrite <- app_assoc.
  - intro H. injection H as <-. exists []. split; reflexivity.
Qed.

(** X14: at the end of a pass from the default map, the map has a legend
    exactly when it has the "Flood Extent" layer. *)
Theorem legend_iff_flood_layer (uploaded_zip : option Upload) (d1 d2 d3 d4 : date) :
  let w' := world_of (script uploaded_zip d1 d2 d3 d4 initial) in
  legend (Map w') = Some ("Flood Extent", [("Flooded Areas", "#1452d9")]) /\
  In "Flood Extent" (layer_names w')
  \/
  legend (Map w') = None /\ ~ In "Flood Extent" (layer_names w').
Proof.
  cbv zeta. rewrite script_run.
  assert (Hno : forall w : World,
             Map w = default_Map ->
             legend (Map w) = None /\ ~ In "Flood Extent" (layer_names w)).
  { intros w H. unfold layer_names. rewrite H.
    split; [reflexivity | intros []]. }
  destruct uploaded_zip as [zip|]; [|right; now apply Hno].
  rewrite load_shapefile_run.
  destruct (zip_namelist zip) as [namelist|]; [|right; now apply Hno].
  destruct (find_shp namelist) as [file|]; [|right; now apply Hno].
  destruct (read_file zip file) as [g|]; [|right; now apply Hno].
  destruct (to_crs g 4326) as [g'|]; [|right; now apply Hno].
  unfold layer_names, world_of, rendered, after_flood_layers, boundary_world,
    legend_after.
  cbn [Map layers legend]. rewrite map_app, layers_added_names. simpl.
  destruct (s2_clipped (geopandas_to_ee g') d1 d2),
    (s2_clipped (geopandas_to_ee g') d3 d4).
  - right. split; [reflexivity|]. simpl. intros [H | []]. discriminate.
  - right. split; [reflexivity|]. simpl. intros [H | []]. discriminate.
  - right. split; [reflexivity|]. simpl.
    intros [H | [H | []]]; discriminate.
  - left. split; [reflexivity|]. simpl. auto.
Qed.

End Pass.

Section Query.

Context {P : Platform}.

Lemma filtered_matches (roi : Geometry) (s e : date) :
  filterBounds roi (filterDate s e catalog) = filter (matches roi s e) catalog.
Proof.
  unfold filterBounds, filterDate, matches.
  induction catalog as [|entry rest IH]; simpl; [reflexivity|].
  destruct ((s <=? acquired entry)%Z && (acquired entry <? e)%Z); simpl.
  - destruct (intersects (footprint entry) roi); now rewrite IH.
  - exact IH.
Qed.

Lemma s2_clipped_matches (roi : Geometry) (s e : date) :
  s2_clipped roi s e =
  map (fun entry => clip_scene roi (scene entry)) (filter (matches roi s e) catalog).
Proof. unfold s2_clipped. now rewrite filtered_matches. Qed.

(** X15: [get_S2] returns a composite and a collection exactly when some
    catalog entry was acquired on or after the start date and before the
    end date and intersects the region. *)
Theorem get_S2_data_iff (roi : Geometry) (s e : date) (w : World) :
  (exists v c w', get_S2 roi s e w = Returned (Some v, Some c) w') <->
  exists entry,
    In entry catalog /\
    (s <= acquired entry < e)%Z /\
    intersects (footprint entry) roi = true.
Proof.
  rewrite get_S2_run, s2_clipped_matches. split.
  - intros (v & c & w' & H).
    destruct (filter (matches roi s e) catalog) as [|entry rest] eqn:E;
      [discriminate|].
    assert (Hin : In entry (filter (matches roi s e) catalog))
      by (rewrite E; now left).
    apply filter_In in Hin. destruct Hin as [Hin Hm].
    unfold matches in Hm. rewrite !andb_true_iff in Hm.
    destruct Hm as [[H1 H2] H3].
    exists entry. repeat split; [assumption | lia | lia | assumption].
  - intros (entry & Hin & [H1 H2] & H3).
    assert (Hf : In entry (filter (matches roi s e) catalog)).
    { apply filter_In. split; [exact Hin|].
      unfold matches. rewrite !andb_true_iff. repeat split; [lia | lia | exact H3]. }
    destruct (filter (matches roi s e) catalog) as [|x rest]; [destruct Hf|].
    simpl. do 3 eexists. reflexivity.
Qed.

(** X16: the collection [get_S2] returns holds exactly the scenes of the
    catalog acquired in the half-open date range that intersect the
    region, each clipped to the region. *)
Theorem get_S2_collection (roi : Geometry) (s e : date) (w w' : World)
        (v : option VisImage) (c : list Scene) :
  get_S2 roi s e w = Returned (v, Some c) w' ->
  forall image,
    In image c <->
    exists entry,
      In entry catalog /\
      (s <= acquired entry < e)%Z /\
      intersects (footprint entry) roi = true /\
      image = clip_scene roi (scene entry).
Proof.
  rewrite get_S2_run.
  destruct (s2_clipped roi s e) as [|x rest] eqn:E; [discriminate|].
  intro H. injection H as _ <- _. rewrite <- E. clear E x rest.
  intro image. rewrite s2_clipped_matches, in_map_iff. split.
  - intros (entry & <- & Hin). apply filter_In in Hin.
    destruct Hin as [Hin Hm]. unfold matches in Hm.
    rewrite !andb_true_iff in Hm. destruct Hm as [[H1 H2] H3].
    exists entry. repeat split; [assumption | lia | lia | assumption].
  - intros (entry & Hin & [H1 H2] & H3 & ->).
    exists entry. split; [reflexivity|]. apply filter_In. split; [exact Hin|].
    unfold matches. rewrite !andb_true_iff. repeat split; [lia | lia | exact H3].
Qed.

Lemma clipped_index_outside (roi : Geometry) (image : Scene) (xy : coord) :
  contains roi xy = false ->
  MNDWI (calculate_mndwi (clip_scene roi image)) xy = None.
Proof.
  intro H. unfold calculate_mndwi, EE.rename, EE.normalizedDifference, clip_scene, clip.
  simpl. now rewrite H.
Qed.

Lemma composite_outside (roi : Geometry) (s e : date) (xy : coord) :
  contains roi xy = false ->
  mndwi_composite (s2_clipped roi s e) xy = None.
Proof.
  intro H. unfold mndwi_composite. apply mean_masked_iff.
  intros r Hin. rewrite map_map in Hin. apply in_map_iff in Hin.
  destruct Hin as (image & <- & Hin).
  unfold s2_clipped in Hin. apply in_map_iff in Hin.
  destruct Hin as (entry & <- & _).
  now apply clipped_index_outside.
Qed.

Lemma mean_band_outside (roi : Geometry) (s e : date) (band : Scene -> raster)
      (xy : coord) :
  (forall image, band (clip_scene roi image) xy = None) ->
  EE.mean (map band (s2_clipped roi s e)) xy = None.
Proof.
  intro H. apply mean_masked_iff.
  intros r Hin. apply in_map_iff in Hin.
  destruct Hin as (image & <- & Hin).
  unfold s2_clipped in Hin. apply in_map_iff in Hin.
  destruct Hin as (entry & <- & _). apply H.
Qed.

(** X17: outside the region nothing is shown: there the bands of the
    visual composite, the index composite and the flood mask are all
    masked, whatever the catalog holds. *)
Theorem outside_roi_masked (roi : Geometry) (s e s' e' : date) (xy : coord) :
  contains roi xy = false ->
  B4 (vis_source (rgb_composite roi s e)) xy = None /\
  B3 (vis_source (rgb_composite roi s e)) xy = None /\
  B2 (vis_source (rgb_composite roi s e)) xy = None /\
  mndwi_composite (s2_clipped roi s e) xy = None /\
  flood_extent (mndwi_composite (s2_clipped roi s e))
               (mndwi_composite (s2_clipped roi s' e')) xy = None.
Proof.
  intro H.
  assert (Hclip : forall r, clip roi r xy = None)
    by (intro r; unfold clip; now rewrite H).
  repeat split.
  - apply mean_band_outside. intro image. apply Hclip.
  - apply mean_band_outside. intro image. apply Hclip.
  - apply mean_band_outside. intro image. apply Hclip.
  - now apply composite_outside.
  - rewrite flood_extent_pixel, (composite_outside roi s' e' xy H).
    reflexivity.
Qed.

(** X18: when the same date range is given for both periods and it has
    scenes, the pass does add a "Flood Extent" layer, and that layer is
    masked everywhere. *)
Theorem same_range_no_flood (roi : Geometry) (s e : date) (w : World) :
  s2_clipped roi s e <> [] ->
  exists flooded,
    In (mkLayer (Mask flooded) water_Viz "Flood Extent")
       (layers (Map (world_of (flood_layers roi s e s e w)))) /\
    forall xy, flooded xy = None.
Proof.
  intro Hne. rewrite flood_layers_run.
  unfold world_of, after_flood_layers, layers_added. cbn [Map layers].
  destruct (s2_clipped roi s e) as [|x rest] eqn:E; [now elim Hne|].
  eexists. split.
  - apply in_or_app. right. right. right. left. reflexivity.
  - intro xy. rewrite flood_extent_pixel.
    destruct (mndwi_composite (x :: rest) xy) as [v|]; [|reflexivity].
    destruct (Qlt_bool cutoff v) eqn:H1, (Qlt_bool v cutoff) eqn:H2;
      try reflexivity.
    apply Qlt_bool_iff in H1, H2. exfalso.
    apply (Qlt_irrefl v). now apply Qlt_trans with cutoff.
Qed.

End Query.

(* ================================================================== *)
(** ** The bounded platform as an instance *)

(** A pass over an archive whose first ".shp" member loads, with the dry
    scene before and the wet scene after. *)
Lemma script_with_boundary_witness :
  let shown :=
    mkMap (P := demo_bounded) (0, 0) 9
          (mkLayer (AOI (square 5)) (mkVis [] None None [] (Some "red")) "AOI"
           :: layers_added (square 5) 5%Z 15%Z 15%Z 25%Z)
          (legend_after (square 5) 5%Z 15%Z 15%Z 25%Z None) in
  script (P := demo_bounded) (Some (Some ["a.dbf"; "a.shp"])) 5%Z 15%Z 15%Z 25%Z initial =
  Returned tt
    (mkWorld shown
             (log initial ++ [ReadFile "a.shp"; ToCrs 4326]
                ++ events_logged (square 5) 5%Z 15%Z 15%Z 25%Z ++ [ToStreamlit shown])%list).
Proof.
  exact (script_with_boundary (P := demo_bounded)
           (Some ["a.dbf"; "a.shp"]) ["a.dbf"; "a.shp"] "a.shp" "a.shp" "a.shp"
           5%Z 15%Z 15%Z 25%Z initial eq_refl eq_refl eq_refl eq_refl).
Defined.

(** A pass over a boundary that cannot be reprojected raises. *)
Lemma boundary_failure_raises_witness :
  exists w',
    script (P := demo_bounded) (Some (Some ["noprj.shp"])) 5%Z 15%Z 15%Z 25%Z initial
    = Raised w'.
Proof.
  apply (boundary_failure_raises (P := demo_bounded)
           (Some ["noprj.shp"]) 5%Z 15%Z 15%Z 25%Z initial).
  right. exists ["noprj.shp"], "noprj.shp".
  split; [reflexivity|]. split; [reflexivity|].
  right. exists "noprj.shp". split; reflexivity.
Defined.

(** A pass over an archive whose geometry file does not parse leaves the
    default map and has only read the member. *)
Lemma boundary_failure_leaves_map_witness :
  Map (world_of (script (P := demo_bounded) (Some (Some ["a.dbf"; "bad.shp"]))
                        5%Z 15%Z 15%Z 25%Z initial))
  = Map initial /\
  (log (world_of (script (P := demo_bounded) (Some (Some ["a.dbf"; "bad.shp"]))
                         5%Z 15%Z 15%Z 25%Z initial))
   = log initial \/
   exists file,
     log (world_of (script (P := demo_bounded) (Some (Some ["a.dbf"; "bad.shp"]))
                           5%Z 15%Z 15%Z 25%Z initial))
     = (log initial ++ [ReadFile file])%list \/
     log (world_of (script (P := demo_bounded) (Some (Some ["a.dbf"; "bad.shp"]))
                           5%Z 15%Z 15%Z 25%Z initial))
     = (log initial ++ [ReadFile file; ToCrs 4326])%list).
Proof.
  apply (boundary_failure_leaves_map (P := demo_bounded)
           (Some ["a.dbf"; "bad.shp"]) 5%Z 15%Z 15%Z 25%Z initial).
  right. exists ["a.dbf"; "bad.shp"], "bad.shp".
  split; [reflexivity|]. split; [reflexivity|].
  left. reflexivity.
Defined.

(** A pass without an upload renders the default map and nothing else. *)
Lemma script_renders_last_witness :
  exists events,
    log (rendered (P := demo_bounded) initial)
    = (log initial ++ events ++ [ToStreamlit (Map (rendered initial))])%list /\
    existsb is_ToStreamlit events = false.
Proof.
  apply (script_renders_last (P := demo_bounded) None 5%Z 15%Z 15%Z 25%Z
                             initial (rendered initial)).
  reflexivity.
Defined.

(** The scene of day 20 is in the collection of the range from day 15 to
    day 25, and the scene of day 10 is not. *)
Lemma get_S2_collection_witness :
  In (clip_scene (P := demo_bounded) (square 5) wet_scene)
     [clip_scene (P := demo_bounded) (square 5) wet_scene] <->
  exists entry,
    In entry (@catalog demo_bounded) /\
    (15 <= acquired entry < 25)%Z /\
    @intersects demo_bounded (footprint entry) (square 5) = true /\
    clip_scene (P := demo_bounded) (square 5) wet_scene
    = clip_scene (P := demo_bounded) (square 5) (scene entry).
Proof.
  apply (get_S2_collection (P := demo_bounded) (square 5) 15%Z 25%Z initial
           (mkWorld default_Map [GetInfo (square 5) 15%Z 25%Z])
           (Some (rgb_composite (square 5) 15%Z 25%Z))
           [clip_scene (P := demo_bounded) (square 5) wet_scene]
           eq_refl
           (clip_scene (P := demo_bounded) (square 5) wet_scene)).
Defined.

(** The pixel (6, 0) lies outside the square of half-width 5. *)
Lemma outside_roi_masked_witness :
  B4 (vis_source (rgb_composite (P := demo_bounded) (square 5) 5%Z 15%Z)) (6, 0)%Z = None /\
  B3 (vis_source (rgb_composite (P := demo_bounded) (square 5) 5%Z 15%Z)) (6, 0)%Z = None /\
  B2 (vis_source (rgb_composite (P := demo_bounded) (square 5) 5%Z 15%Z)) (6, 0)%Z = None /\
  mndwi_composite (s2_clipped (P := demo_bounded) (square 5) 5%Z 15%Z) (6, 0)%Z = None /\
  flood_extent (mndwi_composite (s2_clipped (P := demo_bounded) (square 5) 5%Z 15%Z))
               (mndwi_composite (s2_clipped (P := demo_bounded) (square 5) 15%Z 25%Z))
               (6, 0)%Z = None.
Proof.
  apply (outside_roi_masked (P := demo_bounded) (square 5) 5%Z 15%Z 15%Z 25%Z (6, 0)%Z).
  reflexivity.
Defined.

(** Both periods set to the range that holds the wet scene. *)
Lemma same_range_no_flood_witness :
  exists flooded,
    In (mkLayer (P := demo_bounded) (Mask flooded) water_Viz "Flood Extent")
       (layers (Map (world_of (flood_layers (square 5) 15%Z 25%Z 15%Z 25%Z initial)))) /\
    forall xy, flooded xy = None.
Proof.
  apply (same_range_no_flood (P := demo_bounded) (square 5) 15%Z 25%Z initial).
  discriminate.
Defined.
